(** * The WASM bootstrap scripts of prezentare_licenta

    Three loader scripts are embedded here:
    - [main_threads]    : src/main.js, first script (shared memory, worker pool);
    - [main_white_mode] : src/main.js, second script (imports ./pkg_white_mode);
    - [main_plain]      : src/unnamed/part_000 (imports ./pkg).

    A script is a computation in a small monad that records, in order, every
    observable step (console output, calls into the imported module, promise
    settlements) and ends fulfilled, rejected or pending for ever.  The
    imported module and the host are opaque: they are the [World] a script
    runs in. *)

From Stdlib Require Import List String ZArith Bool Lia.
Import ListNotations.
Open Scope string_scope.
Open Scope list_scope.
Open Scope Z_scope.

(** ** Values, settlements, completions *)

(** The JavaScript values the scripts handle.  A rejection reason or a thrown
    value is any value. *)
Inductive value : Type :=
| VBool (b : bool)
| VString (s : string)
| VError (message : string).

(** State a promise of the imported module ends in. *)
Inductive settlement : Type :=
| Fulfilled
| Rejected (reason : value)
| Pending.

(** What a synchronous call of an export does.  The value a call returns is
    not part of it: the scripts drop the value of [wasm.wasm_main()], and
    what becomes of a promise returned there is [wasm_main_promise] below. *)
Inductive completion : Type :=
| Returns
| Throws (thrown : value).

(** [new URL(spec, base)], kept unresolved. *)
Record URL : Type := new_URL { url_spec : string; url_base : string }.

(** [new WebAssembly.Memory({ initial, maximum, shared })]. *)
Record Memory : Type := new_Memory { initial : Z; maximum : Z; shared : bool }.

(** The object literal given to [init]. *)
Record InitInput : Type := mkInitInput { module : URL; memory : Memory }.

(** ** The world: host and imported module *)

(** The namespace [wasm] (with its default export [init]) that the [import]
    statement binds.  [init] and [initThreadPool] answer with the settlement
    of the promise they return; a missing export or a synchronous throw
    inside the async callback surfaces as a rejection and is covered by
    [Rejected].  [wasm_main] is [None] when [wasm.wasm_main] is falsy.
    [wasm_main_promise] is the settlement of the promise [wasm_main] returns
    when it returns one (an async export); [Fulfilled] also stands for a
    returned value that is no promise. *)
Record Module : Type := mkModule {
  init : option InitInput -> settlement;
  initThreadPool : Z -> settlement;
  wasm_main : option completion;
  wasm_main_promise : settlement
}.

(** The host: whether the global [SharedArrayBuffer] is defined, the value of
    [import.meta.url], and the imported module.  The static [import] is taken
    to have succeeded (otherwise no statement of the script runs), and the
    built-ins [console.log], [console.error], [URL] and [WebAssembly.Memory]
    to return normally. *)
Record World : Type := mkWorld {
  SharedArrayBuffer_defined : bool;
  import_meta_url : string;
  wasm : Module
}.

(** ** Observable steps *)

Inductive event : Type :=
| ConsoleLog (args : list value)
| ConsoleError (args : list value)
| InitCall (input : option InitInput)
| InitResolved
| InitRejected (reason : value)
| PoolCall (workers : Z)
| PoolResolved
| PoolRejected (reason : value)
| MainCheck (present : bool)
| MainCall
| MainReturned
| MainThrew (thrown : value)
| UnhandledRejection (reason : value).

Definition trace : Type := list event.

(** ** The script monad *)

(** How a computation ends: with a value (a fulfilled promise, a normal
    return), with a thrown value (a rejected promise, an exception inside a
    promise callback), or never (a promise that stays pending). *)
Inductive outcome (A : Type) : Type :=
| Done (a : A)
| Raised (v : value)
| Never.

Arguments Done {A} a.
Arguments Raised {A} v.
Arguments Never {A}.

Definition M (A : Type) : Type := (trace * outcome A)%type.

Definition ret {A} (a : A) : M A := ([], Done a).

Definition bind {A B} (m : M A) (k : A -> M B) : M B :=
  match m with
  | (t, Done a) => let (t', r) := k a in (t ++ t', r)
  | (t, Raised v) => (t, Raised v)
  | (t, Never) => (t, Never)
  end.

Notation "x <- m ;; k" := (bind m (fun x => k))
  (at level 61, m at next level, right associativity).
Notation "m ;; k" := (bind m (fun _ => k))
  (at level 61, right associativity).

Definition emit (e : event) : M unit := ([e], Done tt).
Definition throw {A} (v : value) : M A := ([], Raised v).
Definition never {A} : M A := ([], Never).

(** [p.then(cb)]: [cb] runs once [p] is fulfilled; a rejection of [p] or of
    [cb] rejects the resulting promise. *)
Definition then_ {A B} (p : M A) (cb : A -> M B) : M B := bind p cb.

(** [p.catch(h)]: [h] runs on the rejection reason, whether it comes from the
    first promise of the chain or from a callback before the [catch]. *)
Definition catch_ {A} (p : M A) (h : value -> M A) : M A :=
  match p with
  | (t, Raised v) => let (t', r) := h v in (t ++ t', r)
  | other => other
  end.

(** [await p] inside an async function: the body resumes when [p] is
    fulfilled and the function's promise rejects when [p] does. *)
Definition await {A} (p : M A) : M A := p.

(** [async () => { body }]: the function returns a promise that is rejected
    when [body] throws or awaits a rejected promise; [then] adopts it. *)
Definition async {A} (body : M A) : M A := body.

(** ** Primitives *)

Definition console_log (args : list value) : M unit := emit (ConsoleLog args).
Definition console_error (args : list value) : M unit := emit (ConsoleError args).

(** [typeof SharedArrayBuffer]. *)
Definition typeof_SharedArrayBuffer (w : World) : string :=
  if SharedArrayBuffer_defined w then "function" else "undefined".

(** [typeof SharedArrayBuffer !== "undefined"]. *)
Definition probe (w : World) : bool :=
  negb (String.eqb (typeof_SharedArrayBuffer w) "undefined").

Definition settle (s : settlement) (ok : event) (ko : value -> event) : M unit :=
  match s with
  | Fulfilled => emit ok
  | Rejected v => emit (ko v) ;; throw v
  | Pending => never
  end.

(** [init(input)]: the call, then the settlement of the promise it returns. *)
Definition call_init (w : World) (input : option InitInput) : M unit :=
  emit (InitCall input) ;;
  settle (init (wasm w) input) InitResolved InitRejected.

(** [wasm.initThreadPool(n)]. *)
Definition call_initThreadPool (w : World) (n : Z) : M unit :=
  emit (PoolCall n) ;;
  settle (initThreadPool (wasm w) n) PoolResolved PoolRejected.

(** The test [if (wasm.wasm_main)]. *)
Definition wasm_main_truthy (w : World) : M bool :=
  let b := match wasm_main (wasm w) with Some _ => true | None => false end in
  emit (MainCheck b) ;; ret b.

(** [wasm.wasm_main()]. *)
Definition call_wasm_main (w : World) : M unit :=
  match wasm_main (wasm w) with
  | Some Returns => emit MainCall ;; emit MainReturned
  | Some (Throws v) => emit MainCall ;; emit (MainThrew v) ;; throw v
  | None => throw (VError "TypeError: wasm.wasm_main is not a function")
  end.

(** ** The three scripts *)

Definition probe_log (w : World) : event :=
  ConsoleLog [VString "SharedArrayBuffer available:"; VBool (probe w)].

(** The argument of [init] in the shared-memory script. *)
Definition threads_input (w : World) : InitInput :=
  {| module := new_URL "./pkg/prezentare_licenta.wasm" (import_meta_url w);
     memory := new_Memory 200 16384 true |}.

(** src/main.js, first script. *)
Definition main_threads (w : World) : M unit :=
  console_log [VString "SharedArrayBuffer available:"; VBool (probe w)] ;;
  then_ (call_init w (Some (threads_input w))) (fun _ => async (
    console_log [VString "WASM module initialized"] ;;
    await (call_initThreadPool w 2) ;;
    present <- wasm_main_truthy w ;;
    if present : bool then
      call_wasm_main w ;;
      console_log [VString "wasm_main called"]
    else ret tt)).

(** src/main.js, second script (import from ./pkg_white_mode). *)
Definition main_white_mode (w : World) : M unit :=
  console_log [VString "SharedArrayBuffer available:"; VBool (probe w)] ;;
  catch_
    (then_ (call_init w None) (fun _ =>
       console_log [VString "WASM module initialized"] ;;
       present <- wasm_main_truthy w ;;
       if present : bool then
         call_wasm_main w ;;
         console_log [VString "wasm_main called"]
       else ret tt))
    (fun error =>
       console_error [VString "Failed to initialize WASM:"; error]).

(** src/unnamed/part_000 (import from ./pkg). *)
Definition main_plain (w : World) : M unit :=
  console_log [VString "SharedArrayBuffer available:"; VBool (probe w)] ;;
  catch_
    (then_ (call_init w None) (fun _ =>
       console_log [VString "WASM module initialized"] ;;
       present <- wasm_main_truthy w ;;
       if present : bool then
         call_wasm_main w ;;
         console_log [VString "wasm_main called"]
       else ret tt))
    (fun error =>
       console_error [VString "Failed to initialize WASM:"; error]).

Inductive variant : Type := Threads | WhiteMode | Plain.

Definition script (v : variant) : World -> M unit :=
  match v with
  | Threads => main_threads
  | WhiteMode => main_white_mode
  | Plain => main_plain
  end.

(** The module the [import] statement of each script names. *)
Definition import_specifier (v : variant) : string :=
  match v with
  | Threads => "./pkg/prezentare_licenta.js"
  | WhiteMode => "./pkg_white_mode/prezentare_licenta.js"
  | Plain => "./pkg/prezentare_licenta.js"
  end.

(** What each script passes to [init]. *)
Definition init_input (v : variant) (w : World) : option InitInput :=
  match v with
  | Threads => Some (threads_input w)
  | WhiteMode | Plain => None
  end.

(** Whether the script chains a [.catch] handler. *)
Definition has_failure_handler (v : variant) : bool :=
  match v with
  | Threads => false
  | WhiteMode | Plain => true
  end.

(** The run of the promise chain: the script's steps, then the host's report
    of the chain's final promise when it is rejected and nothing handles it.
    The one value a script drops, that of [wasm.wasm_main()], is followed up
    in [whole_run] below. *)
Definition run (v : variant) (w : World) : trace :=
  match script v w with
  | (t, Raised reason) => t ++ [UnhandledRejection reason]
  | (t, _) => t
  end.

(** ** Reading traces *)

Definition is_InitCall (e : event) : bool :=
  match e with InitCall _ => true | _ => false end.
Definition is_InitResolved (e : event) : bool :=
  match e with InitResolved => true | _ => false end.
Definition is_PoolCall (e : event) : bool :=
  match e with PoolCall _ => true | _ => false end.
Definition is_PoolResolved (e : event) : bool :=
  match e with PoolResolved => true | _ => false end.
Definition is_MainCheck (e : event) : bool :=
  match e with MainCheck _ => true | _ => false end.
Definition is_MainCall (e : event) : bool :=
  match e with MainCall => true | _ => false end.
Definition is_MainReturned (e : event) : bool :=
  match e with MainReturned => true | _ => false end.
Definition is_ConsoleError (e : event) : bool :=
  match e with ConsoleError _ => true | _ => false end.
Definition is_rejection (e : event) : bool :=
  match e with InitRejected _ | PoolRejected _ => true | _ => false end.

(** [console.log] whose first argument is the string [s]. *)
Definition is_log (s : string) (e : event) : bool :=
  match e with
  | ConsoleLog (VString s' :: _) => String.eqb s s'
  | _ => false
  end.

(** The three fixed log lines. *)
Definition log_initialized : event := ConsoleLog [VString "WASM module initialized"].
Definition log_main_called : event := ConsoleLog [VString "wasm_main called"].
Definition log_failed (reason : value) : event :=
  ConsoleError [VString "Failed to initialize WASM:"; reason].

(** Number of steps of a kind in a trace. *)
Definition count (p : event -> bool) (t : trace) : nat := List.length (filter p t).

(** Every [q] step has a [p] step strictly before it. *)
Definition precedes (p q : event -> bool) (t : trace) : Prop :=
  forall pre e post, t = pre ++ e :: post -> q e = true -> existsb p pre = true.

Fixpoint guarded (p q : event -> bool) (t : trace) : bool :=
  match t with
  | [] => true
  | e :: t' => negb (q e) && (p e || guarded p q t')
  end.

(** Every [p] step is directly followed by a [q] step. *)
Definition directly_followed (p q : event -> bool) (t : trace) : Prop :=
  forall pre e post, t = pre ++ e :: post -> p e = true ->
    exists e' post', post = e' :: post' /\ q e' = true.

Fixpoint next_is (p q : event -> bool) (t : trace) : bool :=
  match t with
  | [] => true
  | e :: t' =>
      (if p e then match t' with e' :: _ => q e' | [] => false end else true)
      && next_is p q t'
  end.

(** What follows the first step of kind [p]. *)
Fixpoint steps_after (p : event -> bool) (t : trace) : trace :=
  match t with
  | [] => []
  | e :: t' => if p e then t' else steps_after p t'
  end.

(** ** Failures and their reports *)

Definition is_UnhandledRejection (e : event) : bool :=
  match e with UnhandledRejection _ => true | _ => false end.

(** The test [if (wasm.wasm_main)] found the export. *)
Definition is_MainFound (e : event) : bool :=
  match e with MainCheck true => true | _ => false end.

(** The reason of a failure inside the chain: a rejected promise of the
    module or a throwing entry point. *)
Definition raised_reason (e : event) : option value :=
  match e with
  | InitRejected r | PoolRejected r | MainThrew r => Some r
  | _ => None
  end.

(** The reason the [.catch] handler writes after [Failed to initialize WASM:]. *)
Definition logged_reason (e : event) : option value :=
  match e with
  | ConsoleError [VString s; r] =>
      if String.eqb s "Failed to initialize WASM:" then Some r else None
  | _ => None
  end.

(** The reason the host reports for a rejection nothing handled. *)
Definition unhandled_reason (e : event) : option value :=
  match e with UnhandledRejection r => Some r | _ => None end.

(** The values [f] picks out of a trace, in order. *)
Fixpoint reasons (f : event -> option value) (t : trace) : list value :=
  match t with
  | [] => []
  | e :: t' =>
      match f e with
      | Some r => r :: reasons f t'
      | None => reasons f t'
      end
  end.

(** ** The promise the entry point returns *)

(** The statement [wasm.wasm_main();] drops the value of the call.  When the
    call returned and that value is a promise that rejects, no handler is
    attached to it, in no variant: [dropped] is the reason the host is left
    with. *)
Definition dropped (v : variant) (w : World) : list value :=
  if existsb is_MainReturned (run v w)
  then match wasm_main_promise (wasm w) with
       | Rejected reason => [reason]
       | Fulfilled | Pending => []
       end
  else [].

(** A run with what the host reports afterwards for the dropped promise. *)
Definition whole_run (v : variant) (w : World) : trace :=
  run v w ++ map UnhandledRejection (dropped v w).

(** ** Sample worlds *)

Definition sample_module (i p : settlement) (m : option completion) : Module :=
  {| init := fun _ => i; initThreadPool := fun _ => p; wasm_main := m;
     wasm_main_promise := Fulfilled |}.

Definition sample_world (sab : bool) (i p : settlement) (m : option completion) : World :=
  {| SharedArrayBuffer_defined := sab;
     import_meta_url := "https://example.org/main.js";
     wasm := sample_module i p m |}.

(** A world whose [wasm_main] is an async export: everything resolves, the
    call returns, and the promise it returned settles as [later]. *)
Definition async_entry_world (later : settlement) : World :=
  {| SharedArrayBuffer_defined := true;
     import_meta_url := "https://example.org/main.js";
     wasm := {| init := fun _ => Fulfilled;
                initThreadPool := fun _ => Fulfilled;
                wasm_main := Some Returns;
                wasm_main_promise := later |} |}.

(** ** Laws of the script monad *)

Section MonadLaws.
Context {A B C : Type}.

Lemma bind_ret_l (a : A) (k : A -> M B) : bind (ret a) k = k a.
Proof. unfold bind, ret. now destruct (k a). Qed.

Lemma bind_ret_r (m : M A) : bind m ret = m.
Proof. destruct m as [t [a|v|]]; cbn; now rewrite ?app_nil_r. Qed.

Lemma bind_assoc (m : M A) (k : A -> M B) (h : B -> M C) :
  bind (bind m k) h = bind m (fun a => bind (k a) h).
Proof.
  destruct m as [t [a|v|]]; cbn; try reflexivity.
  destruct (k a) as [t1 [b|v|]]; cbn; try reflexivity.
  destruct (h b) as [t2 r]. now rewrite app_assoc.
Qed.

(** Steps once taken stay: a continuation only adds steps. *)
Lemma bind_extends (m : M A) (k : A -> M B) :
  exists t', fst (bind m k) = fst m ++ t'.
Proof.
  destruct m as [t [a|v|]]; cbn.
  - destruct (k a) as [t' r]. now exists t'.
  - exists []. now rewrite app_nil_r.
  - exists []. now rewrite app_nil_r.
Qed.

(** A handler that does not throw leaves nothing rejected. *)
Lemma catch_settles (p : M A) (h : value -> M A) :
  (forall v x, snd (h v) <> Raised x) ->
  forall x, snd (catch_ p h) <> Raised x.
Proof.
  intros Hh x. destruct p as [t [a|v|]]; cbn; try discriminate.
  specialize (Hh v x). destruct (h v) as [t' r]. exact Hh.
Qed.

(** A fulfilled promise skips the handler. *)
Lemma catch_done (t : trace) (a : A) (h : value -> M A) :
  catch_ (t, Done a) h = (t, Done a).
Proof. reflexivity. Qed.
End MonadLaws.

(** The promise a script with a [.catch] ends on is never rejected. *)
Lemma handled_script_not_rejected (v : variant) (w : World) (x : value) :
  has_failure_handler v = true -> snd (script v w) <> Raised x.
Proof.
  destruct v; [discriminate| |]; intros _;
    unfold script, main_white_mode, main_plain, console_log, bind, emit;
    match goal with
    | |- context [catch_ ?p ?h] =>
        pose proof (catch_settles p h (fun _ _ => ltac:(discriminate)) x) as H;
        destruct (catch_ p h) as [t r]
    end; exact H.
Qed.

(** ** Lemmas on traces *)

Lemma guarded_precedes (p q : event -> bool) (t : trace) :
  guarded p q t = true <-> precedes p q t.
Proof.
  unfold precedes. induction t as [|x t IH]; cbn.
  - split; [|reflexivity]. intros _ [|y pre] e post H; discriminate H.
  - rewrite andb_true_iff, negb_true_iff, orb_true_iff, IH. split.
    + intros [Hq Hp] [|y pre] e post H He; cbn in H; injection H as -> ->.
      * congruence.
      * cbn. destruct Hp as [->|Hp]; [reflexivity|].
        rewrite (Hp pre e post eq_refl He). apply orb_true_r.
    + intros H. split.
      * destruct (q x) eqn:Hq; [|reflexivity].
        discriminate (H [] x t eq_refl Hq).
      * destruct (p x) eqn:Hp; [now left|right].
        intros pre e post -> He.
        specialize (H (x :: pre) e post eq_refl He). cbn in H.
        now rewrite Hp in H.
Qed.

Lemma next_is_directly_followed (p q : event -> bool) (t : trace) :
  next_is p q t = true <-> directly_followed p q t.
Proof.
  unfold directly_followed. induction t as [|x t IH]; cbn.
  - split; [|reflexivity]. intros _ [|y pre] e post H; discriminate H.
  - rewrite andb_true_iff, IH. split.
    + intros [Hx Ht] [|y pre] e post H He; cbn in H; injection H as -> ->.
      * rewrite He in Hx. destruct post as [|e' post']; [discriminate|eauto].
      * eapply Ht; eauto.
    + intros H. split.
      * destruct (p x) eqn:Hp; [|reflexivity].
        destruct (H [] x t eq_refl Hp) as (e' & post' & -> & He'). exact He'.
      * intros pre e post -> He. exact (H (x :: pre) e post eq_refl He).
Qed.

Lemma count_app (p : event -> bool) (t u : trace) :
  count p (t ++ u) = (count p t + count p u)%nat.
Proof. unfold count. now rewrite filter_app, length_app. Qed.

Lemma probe_defined (w : World) : probe w = SharedArrayBuffer_defined w.
Proof. unfold probe, typeof_SharedArrayBuffer. now destruct (SharedArrayBuffer_defined w). Qed.

(** ** The runs, case by case *)

Lemma run_threads (w : World) :
  run Threads w =
  probe_log w :: InitCall (Some (threads_input w)) ::
  match init (wasm w) (Some (threads_input w)) with
  | Fulfilled =>
      InitResolved :: log_initialized :: PoolCall 2 ::
      match initThreadPool (wasm w) 2 with
      | Fulfilled =>
          PoolResolved ::
          match wasm_main (wasm w) with
          | None => [MainCheck false]
          | Some Returns => [MainCheck true; MainCall; MainReturned; log_main_called]
          | Some (Throws v) => [MainCheck true; MainCall; MainThrew v; UnhandledRejection v]
          end
      | Rejected r => [PoolRejected r; UnhandledRejection r]
      | Pending => []
      end
  | Rejected r => [InitRejected r; UnhandledRejection r]
  | Pending => []
  end.
Proof.
  unfold run, script, main_threads, then_, async, await, call_init, call_initThreadPool,
    wasm_main_truthy, call_wasm_main.
  destruct (init (wasm w) (Some (threads_input w))); cbn; try reflexivity.
  destruct (initThreadPool (wasm w) 2); cbn; try reflexivity.
  destruct (wasm_main (wasm w)) as [[|v]|]; reflexivity.
Qed.

Lemma run_simple (v : variant) (w : World) :
  has_failure_handler v = true ->
  run v w =
  probe_log w :: InitCall None ::
  match init (wasm w) None with
  | Fulfilled =>
      InitResolved :: log_initialized ::
      match wasm_main (wasm w) with
      | None => [MainCheck false]
      | Some Returns => [MainCheck true; MainCall; MainReturned; log_main_called]
      | Some (Throws x) => [MainCheck true; MainCall; MainThrew x; log_failed x]
      end
  | Rejected r => [InitRejected r; log_failed r]
  | Pending => []
  end.
Proof.
  destruct v; [discriminate| |]; intros _;
    unfold run, script, main_white_mode, main_plain, then_, call_init,
      wasm_main_truthy, call_wasm_main;
    (destruct (init (wasm w) None); cbn; try reflexivity;
     destruct (wasm_main (wasm w)) as [[|x]|]; reflexivity).
Qed.

(** ** Proof steps shared by the theorems below *)

(** Replace the run of any variant by its case-by-case form. *)
Ltac by_variant v w :=
  destruct v;
  [ rewrite (run_threads w)
  | rewrite (run_simple WhiteMode w eq_refl)
  | rewrite (run_simple Plain w eq_refl) ].

Ltac show_steps :=
  unfold probe_log, log_initialized, log_main_called, log_failed in *.

(** Membership in an explicit trace. *)
Ltac in_trace :=
  solve [ show_steps; cbn [In];
          repeat match goal with
                 | |- ~ _ => intro
                 | |- _ \/ _ -> _ => intro
                 | H : _ \/ _ |- _ => destruct H
                 | H : False |- _ => destruct H
                 | H : _ = _ |- _ => discriminate H
                 end;
          first [ now repeat (first [left; reflexivity | right]) | auto ] ].

(** ** The failure handler *)

Lemma no_handler_rejection_reaches_host :
  In (UnhandledRejection (VError "x"))
     (run Threads (sample_world true (Rejected (VError "x")) Pending None)).
Proof. vm_compute. auto. Qed.

(** [has_failure_handler] holds exactly of the variants none of whose runs
    leaves a rejection of the promise chain to the host. *)
Lemma failure_handler_catches_all (v : variant) :
  has_failure_handler v = true <->
  forall w r, ~ In (UnhandledRejection r) (run v w).
Proof.
  split.
  - intros Hv w r. rewrite (run_simple v w Hv).
    destruct (init (wasm w) None); [|in_trace..].
    destruct (wasm_main (wasm w)) as [[|x]|]; in_trace.
  - intros H. destruct v; [|reflexivity..].
    elim (H _ _ no_handler_rejection_reaches_host).
Qed.

(** ** Entry point and initialization *)

(** C1 (as amended).  In every variant [wasm_main] is never invoked before the
    initialization promise resolves.  When that promise resolves, [wasm_main]
    is invoked if and only if the module exposes it and, in the shared-memory
    variant, the promise of [initThreadPool] resolves too. *)
Theorem entry_point_invocation (v : variant) (w : World) :
  precedes is_InitResolved is_MainCall (run v w) /\
  (init (wasm w) (init_input v w) = Fulfilled ->
   (In MainCall (run v w) <->
    wasm_main (wasm w) <> None /\
    (v = Threads -> initThreadPool (wasm w) 2 = Fulfilled))).
Proof.
  split.
  - apply guarded_precedes.
    by_variant v w; destruct (init (wasm w) _); try reflexivity;
      try destruct (initThreadPool (wasm w) 2); try reflexivity;
      destruct (wasm_main (wasm w)) as [[|x]|]; reflexivity.
  - intros Hinit. by_variant v w; cbn [init_input] in Hinit; rewrite Hinit.
    + destruct (initThreadPool (wasm w) 2) eqn:Hpool;
        [ destruct (wasm_main (wasm w)) as [[|x]|] | | ];
        (split;
         [ intros Hin; split; [ try discriminate | try reflexivity ];
           exfalso; revert Hin; in_trace
         | intros [Hm Hp]; try (now elim Hm);
           try discriminate (Hp eq_refl); in_trace ]).
    + destruct (wasm_main (wasm w)) as [[|x]|];
        (split;
         [ intros Hin; split; [ try discriminate | try discriminate ];
           exfalso; revert Hin; in_trace
         | intros [Hm _]; try (now elim Hm); in_trace ]).
    + destruct (wasm_main (wasm w)) as [[|x]|];
        (split;
         [ intros Hin; split; [ try discriminate | try discriminate ];
           exfalso; revert Hin; in_trace
         | intros [Hm _]; try (now elim Hm); in_trace ]).
Qed.

Lemma entry_point_invocation_witness :
  let w := sample_world true Fulfilled Fulfilled (Some Returns) in
  init (wasm w) (init_input Threads w) = Fulfilled /\
  (In MainCall (run Threads w) <->
   wasm_main (wasm w) <> None /\
   (Threads = Threads -> initThreadPool (wasm w) 2 = Fulfilled)).
Proof.
  intro w. split.
  - reflexivity.
  - apply (proj2 (entry_point_invocation Threads w)). reflexivity.
Defined.

(** C1 as stated fails in the shared-memory variant: initialization
    resolves and the module exposes [wasm_main], yet the rejected
    [initThreadPool] promise ends the callback before the entry point. *)
Lemma entry_point_skipped_when_pool_rejects :
  let w := sample_world true Fulfilled (Rejected (VError "no workers")) (Some Returns) in
  init (wasm w) (init_input Threads w) = Fulfilled /\
  wasm_main (wasm w) <> None /\
  ~ In MainCall (run Threads w).
Proof.
  intro w. split; [reflexivity|]. split; [discriminate|].
  vm_compute. intros H.
  repeat (destruct H as [H|H]; [discriminate H|]). exact H.
Qed.

(** C2.  In the two variants with a failure handler, a rejected
    initialization promise leads to exactly these steps: the probe log, the
    call of [init], the rejection, and one [console.error] line with the
    reason.  The entry point is not invoked, the error line is the only one
    and the last step, and nothing is left unhandled. *)
Theorem init_rejection_logged_once (v : variant) (w : World) (reason : value) :
  has_failure_handler v = true ->
  init (wasm w) (init_input v w) = Rejected reason ->
  run v w = [probe_log w; InitCall None; InitRejected reason; log_failed reason] /\
  ~ In MainCall (run v w) /\
  filter is_ConsoleError (run v w) = [log_failed reason] /\
  steps_after is_ConsoleError (run v w) = [].
Proof.
  intros Hv Hinit. rewrite (run_simple v w Hv).
  assert (init_input v w = None) as E by (destruct v; [discriminate Hv| |]; reflexivity).
  rewrite E in Hinit. rewrite Hinit.
  repeat split; try reflexivity. in_trace.
Qed.

Lemma init_rejection_logged_once_witness :
  let w := sample_world false (Rejected (VError "network error")) Pending (Some Returns) in
  has_failure_handler Plain = true /\
  init (wasm w) (init_input Plain w) = Rejected (VError "network error") /\
  ~ In MainCall (run Plain w) /\
  filter is_ConsoleError (run Plain w) = [log_failed (VError "network error")].
Proof.
  intro w.
  pose proof (init_rejection_logged_once Plain w (VError "network error")
                eq_refl eq_refl) as (_ & Hmain & Herr & _).
  split; [reflexivity|]. split; [reflexivity|]. split; [exact Hmain | exact Herr].
Defined.

(** ** Ordering *)

(** C3.  In the shared-memory variant the check of [wasm.wasm_main] and the
    call of [wasm_main] happen only after the promise of [initThreadPool] has
    resolved, and that promise belongs to a call made before.  The
    resolution is the module's: a run has it exactly when the promises of
    [init] and of [initThreadPool(2)] both resolve, so a run that checks or
    calls [wasm_main] is a run in which [initThreadPool(2)] resolved. *)
Theorem pool_awaited_before_entry_point (w : World) :
  precedes is_PoolResolved (fun e => is_MainCheck e || is_MainCall e) (run Threads w) /\
  precedes is_PoolCall is_PoolResolved (run Threads w) /\
  (In PoolResolved (run Threads w) <->
   init (wasm w) (Some (threads_input w)) = Fulfilled /\
   initThreadPool (wasm w) 2 = Fulfilled) /\
  (forall present, In (MainCheck present) (run Threads w) ->
                   initThreadPool (wasm w) 2 = Fulfilled) /\
  (In MainCall (run Threads w) -> initThreadPool (wasm w) 2 = Fulfilled).
Proof.
  split; [|split];
    try (apply guarded_precedes; rewrite run_threads;
         destruct (init (wasm w) _); try reflexivity;
         destruct (initThreadPool (wasm w) 2); try reflexivity;
         destruct (wasm_main (wasm w)) as [[|x]|]; reflexivity).
  rewrite run_threads.
  destruct (init (wasm w) _);
    [ destruct (initThreadPool (wasm w) 2);
      [ destruct (wasm_main (wasm w)) as [[|x]|] | | ] | | ];
    (split; [split; [intros H | intros [E1 E2]] | split; [intros present H | intros H]]);
    first [ reflexivity
          | split; reflexivity
          | discriminate E1 | discriminate E2
          | in_trace
          | exfalso; revert H; in_trace ].
Qed.

Lemma pool_awaited_before_entry_point_witness :
  let w := sample_world true Fulfilled Fulfilled (Some Returns) in
  In (MainCheck true) (run Threads w) /\
  initThreadPool (wasm w) 2 = Fulfilled.
Proof.
  intro w.
  assert (In (MainCheck true) (run Threads w)) as H by (vm_compute; auto 10).
  split; [exact H|].
  exact (proj1 (proj2 (proj2 (proj2 (pool_awaited_before_entry_point w)))) true H).
Defined.

(** C4.  In every variant and every run the first step is the probe log
    [SharedArrayBuffer available: ...] and the call of [init] comes right
    after it; no call of [init] precedes the probe log. *)
Theorem probe_logged_before_init (v : variant) (w : World) :
  (exists rest, run v w = probe_log w :: InitCall (init_input v w) :: rest) /\
  precedes (is_log "SharedArrayBuffer available:") is_InitCall (run v w).
Proof.
  split.
  - by_variant v w; eexists; reflexivity.
  - apply guarded_precedes. by_variant v w; reflexivity.
Qed.

(** C5.  Two runs of a variant in worlds that differ only in whether
    [SharedArrayBuffer] is defined have the same steps after the first one;
    the first one is the probe log, which shows the flag. *)
Theorem probe_result_not_acted_upon (v : variant) (w1 w2 : World) :
  import_meta_url w1 = import_meta_url w2 ->
  wasm w1 = wasm w2 ->
  tl (run v w1) = tl (run v w2) /\
  hd_error (run v w1) =
    Some (ConsoleLog [VString "SharedArrayBuffer available:";
                      VBool (SharedArrayBuffer_defined w1)]) /\
  hd_error (run v w2) =
    Some (ConsoleLog [VString "SharedArrayBuffer available:";
                      VBool (SharedArrayBuffer_defined w2)]).
Proof.
  intros Hurl Hwasm.
  assert (threads_input w1 = threads_input w2) as Hin
    by (unfold threads_input; now rewrite Hurl).
  rewrite <- (probe_defined w1), <- (probe_defined w2).
  destruct v.
  - rewrite !run_threads, Hwasm, Hin. now cbn.
  - rewrite !(run_simple WhiteMode _ eq_refl), Hwasm. now cbn.
  - rewrite !(run_simple Plain _ eq_refl), Hwasm. now cbn.
Qed.

Lemma probe_result_not_acted_upon_witness :
  let w1 := sample_world true Fulfilled Fulfilled (Some Returns) in
  let w2 := sample_world false Fulfilled Fulfilled (Some Returns) in
  SharedArrayBuffer_defined w1 <> SharedArrayBuffer_defined w2 /\
  tl (run Threads w1) = tl (run Threads w2) /\
  hd_error (run Threads w1) <> hd_error (run Threads w2).
Proof.
  intros w1 w2.
  pose proof (probe_result_not_acted_upon Threads w1 w2 eq_refl eq_refl)
    as (Htl & Hd1 & Hd2).
  split; [discriminate|]. split; [exact Htl|].
  rewrite Hd1, Hd2. discriminate.
Defined.

(** ** Scenarios *)

(** C6 (as amended).  When initialization resolves and the module exposes no
    [wasm_main], every variant logs [WASM module initialized], never invokes
    the entry point, never logs [wasm_main called] and writes no error line.
    After the success log the two simple variants only test [wasm.wasm_main].
    The shared-memory variant first starts the worker pool: it goes on to the
    test when [initThreadPool] resolves, and a rejection of [initThreadPool]
    is the one error raised, unhandled. *)
Theorem no_entry_point_exposed (v : variant) (w : World) :
  init (wasm w) (init_input v w) = Fulfilled ->
  wasm_main (wasm w) = None ->
  In log_initialized (run v w) /\
  ~ In log_main_called (run v w) /\
  ~ In MainCall (run v w) /\
  filter is_ConsoleError (run v w) = [] /\
  (forall r, In (UnhandledRejection r) (run v w) <->
             v = Threads /\ initThreadPool (wasm w) 2 = Rejected r) /\
  steps_after (is_log "WASM module initialized") (run v w) =
    match v with
    | Threads =>
        PoolCall 2 ::
        match initThreadPool (wasm w) 2 with
        | Fulfilled => [PoolResolved; MainCheck false]
        | Rejected r => [PoolRejected r; UnhandledRejection r]
        | Pending => []
        end
    | WhiteMode | Plain => [MainCheck false]
    end.
Proof.
  intros Hinit Hmain.
  by_variant v w; cbn [init_input] in Hinit; rewrite Hinit, Hmain.
  - destruct (initThreadPool (wasm w) 2) as [|r|] eqn:Hpool;
      repeat (split; [in_trace|]); (split; [|reflexivity]);
      intros r'; (split; [| intros [_ E]; inversion E; subst; in_trace]);
      show_steps; cbn [In]; intros H;
      repeat (destruct H as [H|H]; try discriminate H);
      try contradiction.
    injection H as ->. now split.
  - repeat (split; [in_trace|]). split; [|reflexivity].
    intros r; split; [in_trace | intros [E _]; discriminate E].
  - repeat (split; [in_trace|]). split; [|reflexivity].
    intros r; split; [in_trace | intros [E _]; discriminate E].
Qed.

Lemma no_entry_point_exposed_witness :
  let w := sample_world true Fulfilled Fulfilled None in
  init (wasm w) (init_input Threads w) = Fulfilled /\
  wasm_main (wasm w) = None /\
  In log_initialized (run Threads w) /\
  ~ In log_main_called (run Threads w) /\
  steps_after (is_log "WASM module initialized") (run Threads w) =
    [PoolCall 2; PoolResolved; MainCheck false].
Proof.
  intro w.
  pose proof (no_entry_point_exposed Threads w eq_refl eq_refl)
    as (Hlog & Hnot & _ & _ & _ & Hafter).
  split; [reflexivity|]. split; [reflexivity|].
  split; [exact Hlog|]. split; [exact Hnot | exact Hafter].
Defined.

(** C6 as stated fails in the shared-memory variant: the module is loaded and
    exposes no [wasm_main], but the worker pool is started after the success
    log and its rejection is raised. *)
Lemma missing_entry_point_pool_rejection_raises :
  let w := sample_world true Fulfilled (Rejected (VError "no workers")) None in
  init (wasm w) (init_input Threads w) = Fulfilled /\
  wasm_main (wasm w) = None /\
  In (PoolCall 2) (steps_after (is_log "WASM module initialized") (run Threads w)) /\
  In (UnhandledRejection (VError "no workers")) (run Threads w).
Proof.
  intro w. split; [reflexivity|]. split; [reflexivity|].
  split; vm_compute; auto 10.
Qed.

(** C7.  In the two variants with a failure handler, when the module load
    rejects with an error the loader writes [Failed to initialize WASM:]
    followed by that error, and never logs [wasm_main called]. *)
Theorem load_rejection_scenario (v : variant) (w : World) (error : value) :
  has_failure_handler v = true ->
  init (wasm w) (init_input v w) = Rejected error ->
  In (ConsoleError [VString "Failed to initialize WASM:"; error]) (run v w) /\
  ~ In (ConsoleLog [VString "wasm_main called"]) (run v w) /\
  count (is_log "wasm_main called") (run v w) = 0%nat.
Proof.
  intros Hv Hinit. rewrite (run_simple v w Hv).
  destruct v; [discriminate Hv| |]; cbn [init_input] in Hinit; rewrite Hinit;
    (split; [in_trace|]); (split; [in_trace | reflexivity]).
Qed.

Lemma load_rejection_scenario_witness :
  let w := sample_world true (Rejected (VError "network error")) Fulfilled (Some Returns) in
  has_failure_handler WhiteMode = true /\
  init (wasm w) (init_input WhiteMode w) = Rejected (VError "network error") /\
  In (ConsoleError [VString "Failed to initialize WASM:"; VError "network error"])
     (run WhiteMode w) /\
  ~ In (ConsoleLog [VString "wasm_main called"]) (run WhiteMode w).
Proof.
  intro w.
  pose proof (load_rejection_scenario WhiteMode w (VError "network error")
                eq_refl eq_refl) as (Hfail & Hnot & _).
  split; [reflexivity|]. split; [reflexivity|]. split; [exact Hfail | exact Hnot].
Defined.

(** ** The shared-memory variant *)

(** C8.  The shared-memory variant chains no failure handler: no run of it
    writes an error line.  When the promise of [init] or of [initThreadPool]
    rejects, the only step after the rejection is the host's report of the
    unhandled rejection: nothing is logged, and [wasm_main] is neither tested
    nor invoked. *)
Theorem threads_rejection_unhandled (w : World) :
  filter is_ConsoleError (run Threads w) = [] /\
  forall reason,
    init (wasm w) (Some (threads_input w)) = Rejected reason \/
    (init (wasm w) (Some (threads_input w)) = Fulfilled /\
     initThreadPool (wasm w) 2 = Rejected reason) ->
    steps_after is_rejection (run Threads w) = [UnhandledRejection reason] /\
    filter is_MainCheck (run Threads w) = [] /\
    ~ In MainCall (run Threads w).
Proof.
  split.
  - rewrite run_threads.
    destruct (init (wasm w) _); try reflexivity.
    destruct (initThreadPool (wasm w) 2); try reflexivity.
    destruct (wasm_main (wasm w)) as [[|x]|]; reflexivity.
  - intros reason [Hinit | [Hinit Hpool]];
      rewrite run_threads, Hinit; try rewrite Hpool;
      repeat (split; [reflexivity|]); in_trace.
Qed.

Lemma threads_rejection_unhandled_witness :
  let w := sample_world true Fulfilled (Rejected (VError "no workers")) (Some Returns) in
  (init (wasm w) (Some (threads_input w)) = Fulfilled /\
   initThreadPool (wasm w) 2 = Rejected (VError "no workers")) /\
  steps_after is_rejection (run Threads w) = [UnhandledRejection (VError "no workers")] /\
  ~ In MainCall (run Threads w).
Proof.
  intro w.
  pose proof (proj2 (threads_rejection_unhandled w) (VError "no workers")
                (or_intror (conj eq_refl eq_refl))) as (Hafter & _ & Hmain).
  split; [split; reflexivity|]. split; [exact Hafter | exact Hmain].
Defined.

(** C9 (as amended).  In every run of the shared-memory variant [init] is
    called exactly once, with the module URL [./pkg/prezentare_licenta.wasm]
    and a memory of 200 initial pages, 16384 maximum pages, shared.
    [initThreadPool] is called with worker count 2, exactly once when the
    promise of [init] resolves and not at all otherwise. *)
Theorem threads_fixed_configuration (w : World) :
  filter is_InitCall (run Threads w) =
    [InitCall (Some {| module := {| url_spec := "./pkg/prezentare_licenta.wasm";
                                    url_base := import_meta_url w |};
                       memory := {| initial := 200; maximum := 16384; shared := true |} |})] /\
  filter is_PoolCall (run Threads w) =
    match init (wasm w) (Some (threads_input w)) with
    | Fulfilled => [PoolCall 2]
    | Rejected _ | Pending => []
    end.
Proof.
  rewrite run_threads.
  destruct (init (wasm w) _); [|split; reflexivity..].
  destruct (initThreadPool (wasm w) 2); [|split; reflexivity..].
  destruct (wasm_main (wasm w)) as [[|x]|]; split; reflexivity.
Qed.

(** C9 as stated fails on a run whose [init] promise rejects: the callback
    never runs and [initThreadPool] is not called at all. *)
Lemma pool_not_started_when_init_rejects :
  let w := sample_world true (Rejected (VError "network error")) Fulfilled (Some Returns) in
  count is_PoolCall (run Threads w) = 0%nat /\
  count is_InitCall (run Threads w) = 1%nat.
Proof. intro w. split; reflexivity. Qed.

(** ** The entry point *)

(** C10 (as amended).  In every variant and every run [wasm_main] is invoked
    at most once; [wasm_main called] is logged if and only if [wasm_main] was
    invoked and returned, and then as the step right after the return. *)
Theorem entry_point_logged_after_return (v : variant) (w : World) :
  (count is_MainCall (run v w) <= 1)%nat /\
  (In log_main_called (run v w) <->
   In MainCall (run v w) /\ wasm_main (wasm w) = Some Returns) /\
  directly_followed is_MainReturned (is_log "wasm_main called") (run v w) /\
  count (is_log "wasm_main called") (run v w) = count is_MainReturned (run v w).
Proof.
  rewrite <- next_is_directly_followed.
  by_variant v w;
    destruct (init (wasm w) _);
    try destruct (initThreadPool (wasm w) 2);
    destruct (wasm_main (wasm w)) as [[|x]|];
    (split; [cbn; lia|]); (split; [|split; reflexivity]);
    (split; [intros H; split; [|try reflexivity]; revert H; in_trace
            | intros [H E]; try discriminate E; revert H; in_trace]).
Qed.

(** C10 as stated fails when [wasm_main] throws: it was invoked, and the
    line [wasm_main called] is not logged. *)
Lemma throwing_entry_point_not_logged :
  let w := sample_world true Fulfilled Fulfilled (Some (Throws (VError "unreachable"))) in
  In MainCall (run Plain w) /\
  ~ In (ConsoleLog [VString "wasm_main called"]) (run Plain w).
Proof.
  intro w. split.
  - vm_compute. auto 10.
  - vm_compute. intros H.
    repeat (destruct H as [H|H]; [discriminate H|]). exact H.
Qed.

(** ** Further properties of the scripts *)

(** Every case of a run: the variant, then what the module answers. *)
Ltac run_cases v w :=
  by_variant v w; cbn [init_input has_failure_handler];
  destruct (init (wasm w) _);
  try destruct (initThreadPool (wasm w) 2);
  destruct (wasm_main (wasm w)) as [[|?x]|].

(** X1.  No variant retries: in every run [init] is called exactly once,
    whatever its promise does, with the shared-memory input in the
    shared-memory variant and with no argument in the two simple ones. *)
Theorem init_called_once (v : variant) (w : World) :
  filter is_InitCall (run v w) =
    [InitCall (match v with
               | Threads => Some (threads_input w)
               | WhiteMode | Plain => None
               end)].
Proof. run_cases v w; reflexivity. Qed.

(** X2.  In every variant [WASM module initialized] is logged if and only if
    the promise of [init] resolves; it is logged at most once, as the step
    right after the resolution. *)
Theorem success_log_iff_init_resolves (v : variant) (w : World) :
  (In log_initialized (run v w) <-> init (wasm w) (init_input v w) = Fulfilled) /\
  (count (is_log "WASM module initialized") (run v w) <= 1)%nat /\
  directly_followed is_InitResolved (is_log "WASM module initialized") (run v w).
Proof.
  rewrite <- next_is_directly_followed.
  run_cases v w;
    (split; [|split; [cbn; lia | reflexivity]]);
    (split; [ intros H; first [reflexivity | exfalso; revert H; in_trace]
            | intros E; first [discriminate E | in_trace] ]).
Qed.

(** X3.  In the two variants with a failure handler the [.catch] also covers
    the callback: when [init] resolves and [wasm_main] throws, the thrown
    value is written after [Failed to initialize WASM:] although the success
    line was logged before; [wasm_main called] is not logged and nothing
    reaches the host. *)
Theorem thrown_entry_point_logged_as_init_failure
    (v : variant) (w : World) (thrown : value) :
  has_failure_handler v = true ->
  init (wasm w) (init_input v w) = Fulfilled ->
  wasm_main (wasm w) = Some (Throws thrown) ->
  In log_initialized (run v w) /\
  steps_after is_MainCall (run v w) =
    [MainThrew thrown;
     ConsoleError [VString "Failed to initialize WASM:"; thrown]] /\
  ~ In log_main_called (run v w) /\
  filter is_UnhandledRejection (run v w) = [].
Proof.
  intros Hv Hinit Hmain. rewrite (run_simple v w Hv).
  destruct v; [discriminate Hv| |]; cbn [init_input] in Hinit;
    rewrite Hinit, Hmain;
    (split; [in_trace|]); (split; [reflexivity|]); (split; [in_trace|reflexivity]).
Qed.

Lemma thrown_entry_point_logged_as_init_failure_witness :
  let w := sample_world true Fulfilled Pending (Some (Throws (VError "unreachable"))) in
  has_failure_handler WhiteMode = true /\
  init (wasm w) (init_input WhiteMode w) = Fulfilled /\
  wasm_main (wasm w) = Some (Throws (VError "unreachable")) /\
  In log_initialized (run WhiteMode w) /\
  steps_after is_MainCall (run WhiteMode w) =
    [MainThrew (VError "unreachable");
     ConsoleError [VString "Failed to initialize WASM:"; VError "unreachable"]].
Proof.
  intro w.
  pose proof (thrown_entry_point_logged_as_init_failure WhiteMode w
                (VError "unreachable") eq_refl eq_refl eq_refl)
    as (Hlog & Hafter & _).
  repeat (split; [reflexivity|]). split; [exact Hlog | exact Hafter].
Defined.

(** What the host is left with is tied to the world: a reason is dropped
    exactly when the run logged [wasm_main called] and the promise
    [wasm_main] returned rejects with it. *)
Lemma dropped_iff (v : variant) (w : World) (r : value) :
  In r (dropped v w) <->
  In log_main_called (run v w) /\ wasm_main_promise (wasm w) = Rejected r.
Proof.
  unfold dropped.
  run_cases v w; destruct (wasm_main_promise (wasm w)) as [|r'|]; cbn [existsb is_MainReturned orb In];
    (split;
     [ intros H; first [ contradiction
                       | destruct H as [->|[]]; split; [in_trace | reflexivity] ]
     | intros [H E];
       first [ discriminate E
             | injection E as ->; now left
             | exfalso; revert H; in_trace ] ]).
Qed.

(** Without a dropped rejection the whole run is the run of the chain. *)
Lemma whole_run_of_chain (v : variant) (w : World) :
  dropped v w = [] -> whole_run v w = run v w.
Proof. unfold whole_run. intros ->. apply app_nil_r. Qed.

(** X4.  No failure is lost and none is reported twice.  A run has at most
    one failure: a rejected promise of [init] or [initThreadPool], a throw
    of [wasm_main], or a rejection of the promise [wasm_main] returned.
    The [.catch] handler writes exactly the failures of the chain in the two
    simple variants and nothing in the shared-memory variant; the host
    reports as unhandled the failures of the chain in the shared-memory
    variant and, in every variant, the rejection of the dropped promise. *)
Theorem every_failure_reported_once (v : variant) (w : World) :
  reasons logged_reason (whole_run v w) =
    (if has_failure_handler v then reasons raised_reason (whole_run v w) else []) /\
  reasons unhandled_reason (whole_run v w) =
    (if has_failure_handler v then [] else reasons raised_reason (whole_run v w))
    ++ dropped v w /\
  (forall r, In r (dropped v w) <->
             In log_main_called (run v w) /\
             wasm_main_promise (wasm w) = Rejected r) /\
  (List.length (reasons raised_reason (whole_run v w) ++ dropped v w) <= 1)%nat.
Proof.
  split; [|split; [|split; [intros r; apply dropped_iff|]]];
    unfold whole_run, dropped;
    run_cases v w; destruct (wasm_main_promise (wasm w));
    first [reflexivity | cbn; lia].
Qed.

(** X5.  There is no timeout: while the promise of [init] stays pending a run
    is the probe log and the call of [init] and nothing else, in every
    variant; and while the promise of [initThreadPool] stays pending the
    shared-memory variant takes no step after that call. *)
Theorem pending_promise_stops_the_run (v : variant) (w : World) :
  (init (wasm w) (init_input v w) = Pending ->
   run v w = [probe_log w; InitCall (init_input v w)]) /\
  (v = Threads ->
   init (wasm w) (init_input v w) = Fulfilled ->
   initThreadPool (wasm w) 2 = Pending ->
   steps_after is_PoolCall (run v w) = [] /\
   filter is_MainCheck (run v w) = []).
Proof.
  split.
  - intros Hinit. by_variant v w; cbn [init_input] in *; now rewrite Hinit.
  - intros -> Hinit Hpool. cbn [init_input] in Hinit.
    now rewrite run_threads, Hinit, Hpool.
Qed.

Lemma pending_promise_stops_the_run_witness :
  let w := sample_world false Fulfilled Pending (Some Returns) in
  init (wasm w) (init_input Threads w) = Fulfilled /\
  initThreadPool (wasm w) 2 = Pending /\
  steps_after is_PoolCall (run Threads w) = [] /\
  filter is_MainCheck (run Threads w) = [].
Proof.
  intro w. split; [reflexivity|]. split; [reflexivity|].
  exact (proj2 (pending_promise_stops_the_run Threads w) eq_refl eq_refl eq_refl).
Defined.

(** X6.  The two simple variants never start the worker pool and never read
    [import.meta.url]: their run is the same in two worlds that agree on the
    [SharedArrayBuffer] flag, on the answer of [init()] and on [wasm_main],
    whatever [initThreadPool] would do. *)
Theorem simple_variants_ignore_pool (v : variant) (w1 w2 : World) :
  has_failure_handler v = true ->
  SharedArrayBuffer_defined w1 = SharedArrayBuffer_defined w2 ->
  init (wasm w1) None = init (wasm w2) None ->
  wasm_main (wasm w1) = wasm_main (wasm w2) ->
  run v w1 = run v w2 /\ filter is_PoolCall (run v w1) = [].
Proof.
  intros Hv Hsab Hinit Hmain.
  rewrite (run_simple v w1 Hv), (run_simple v w2 Hv).
  unfold probe_log. rewrite (probe_defined w1), (probe_defined w2).
  rewrite Hsab, Hinit, Hmain. split; [reflexivity|].
  destruct (init (wasm w2) None); try reflexivity.
  destruct (wasm_main (wasm w2)) as [[|x]|]; reflexivity.
Qed.

Lemma simple_variants_ignore_pool_witness :
  let w1 := sample_world true Fulfilled Fulfilled (Some Returns) in
  let w2 := {| SharedArrayBuffer_defined := true;
               import_meta_url := "file:///srv/main.js";
               wasm := sample_module Fulfilled (Rejected (VError "no workers"))
                                     (Some Returns) |} in
  w1 <> w2 /\ run Plain w1 = run Plain w2 /\ filter is_PoolCall (run Plain w1) = [].
Proof.
  intros w1 w2. split; [discriminate|].
  exact (simple_variants_ignore_pool Plain w1 w2 eq_refl eq_refl eq_refl eq_refl).
Defined.

(** X7.  [wasm_main called] is logged exactly on full success: [init]
    resolves, in the shared-memory variant [initThreadPool] resolves, and
    [wasm_main] is exposed and returns.  It is then the last step the script
    takes: no error line is written, and the one step that can follow is
    the host's report of an unhandled rejection, exactly when the promise
    [wasm_main] returned rejects, in the variants with a [.catch] too. *)
Theorem final_log_means_success (v : variant) (w : World) :
  (In log_main_called (whole_run v w) <->
   init (wasm w) (init_input v w) = Fulfilled /\
   (v = Threads -> initThreadPool (wasm w) 2 = Fulfilled) /\
   wasm_main (wasm w) = Some Returns) /\
  (In log_main_called (whole_run v w) ->
   filter is_ConsoleError (whole_run v w) = [] /\
   steps_after (is_log "wasm_main called") (whole_run v w) =
     match wasm_main_promise (wasm w) with
     | Rejected reason => [UnhandledRejection reason]
     | Fulfilled | Pending => []
     end).
Proof.
  unfold whole_run, dropped.
  run_cases v w; destruct (wasm_main_promise (wasm w));
    show_steps; cbn [existsb is_MainReturned orb app map];
    (split;
     [ split;
       [ intros H;
         first [ exfalso; revert H; in_trace
               | repeat split; first [reflexivity | discriminate] ]
       | intros (E1 & E2 & E3);
         first [ discriminate E1 | discriminate E3
               | discriminate (E2 eq_refl) | in_trace ] ]
     | intros H;
       first [ exfalso; revert H; in_trace | split; reflexivity ] ]).
Qed.

Lemma final_log_means_success_witness :
  let w := async_entry_world (Rejected (VError "render failed")) in
  In log_main_called (whole_run Plain w) /\
  filter is_ConsoleError (whole_run Plain w) = [] /\
  steps_after (is_log "wasm_main called") (whole_run Plain w) =
    [UnhandledRejection (VError "render failed")].
Proof.
  intro w.
  assert (In log_main_called (whole_run Plain w)) as H.
  { apply (proj1 (final_log_means_success Plain w)).
    split; [reflexivity|]. split; [discriminate | reflexivity]. }
  split; [exact H|].
  exact (proj2 (final_log_means_success Plain w) H).
Defined.

(** X8.  The test guards the call: in every run [wasm.wasm_main] is tested at
    most once, [wasm_main] is invoked if and only if the test found it, as
    the step right after the test, and a test that finds nothing ends the
    run. *)
Theorem entry_point_guarded_by_test (v : variant) (w : World) :
  (count is_MainCheck (run v w) <= 1)%nat /\
  (In MainCall (run v w) <-> In (MainCheck true) (run v w)) /\
  directly_followed is_MainFound is_MainCall (run v w) /\
  (In (MainCheck false) (run v w) -> steps_after is_MainCheck (run v w) = []).
Proof.
  rewrite <- next_is_directly_followed.
  run_cases v w;
    (split; [cbn; lia|]);
    (split; [split; intros H; first [exfalso; revert H; in_trace | in_trace]|]);
    (split; [reflexivity|]);
    intros H; first [reflexivity | exfalso; revert H; in_trace].
Qed.
